(** * MDigitalArtz Leonardo API helper: request construction and failure
      propagation of [mdigitalartz_leonardo.ts].

    The module exports four asynchronous functions.  Each builds an object
    literal (the payload), hands it to axios together with a URL and a header
    object, awaits the promise and returns [response.data].  The embedding
    keeps that shape: object literals are association lists in source order,
    JavaScript numbers are binary64 floats, a defaulted parameter is an
    [option] whose [None] is the omitted (or [undefined]) argument, and an
    [async] body is a computation over the state of the outside world. *)

From Stdlib Require Import String Ascii List ZArith Bool Lia.
From Stdlib Require Import PrimFloat.
Import ListNotations.
Local Open Scope string_scope.
Set Warnings "-register-all".

(** ** JavaScript values *)

Module Js.

(** The values the module handles: the strings, numbers and booleans it
    puts into its object literals, and whatever decoded JSON a response
    carries in [data] (typed [any] by the source).  An object keeps its
    properties in insertion order, the order [JSON.stringify] walks them
    in. *)
Inductive value : Type :=
| Undefined
| Null
| Bool (b : bool)
| Num (x : float)
| Str (s : string)
| Arr (items : list value)
| Obj (props : list (string * value)).

Definition object : Type := list (string * value).

(** Own property names, in insertion order. *)
Definition keys (o : object) : list string := map fst o.

(** Property read [o\[k\]]: the first binding of [k]. *)
Fixpoint get (k : string) (o : object) : option value :=
  match o with
  | [] => None
  | (k', v) :: rest => if String.eqb k k' then Some v else get k rest
  end.

(** A default parameter initialiser [p = d]: the default is taken when the
    argument is missing or [undefined]. *)
Definition default {A : Type} (arg : option A) (d : A) : A :=
  match arg with
  | Some a => a
  | None => d
  end.

End Js.

(** ** Module-level constants (lines 17-20) *)

Definition API_KEY : string := "cd8d7691-5ec5-48e1-9c6b-7160900f59a5".
Definition PHOENIX_MODEL_ID : string := "de7d3faf-762f-48e0-b3b7-9d0ac3a3fcf3".
Definition ANIME_XL_MODEL_ID : string := "e71a1c2f-4f80-4800-934f-2c68979d8cc8".

(** ** Payload construction *)

Section Payloads.
Import Js.

(** The object literal of [generateImagesPhoenix] (lines 42-51), after the
    default initialisers of lines 35-40 have run. *)
Definition phoenixPayload (prompt : string)
    (width height numImages contrast : option float)
    (styleUUID : option string) (alchemy : option bool) : object :=
  let width := default width 1216%float in
  let height := default height 1520%float in
  let numImages := default numImages 4%float in
  let contrast := default contrast 3.5%float in
  let styleUUID := default styleUUID "a5632c7c-ddbb-4e2f-ba34-8456ab3ac436" in
  let alchemy := default alchemy true in
  [ ("modelId", Str PHOENIX_MODEL_ID);
    ("prompt", Str prompt);
    ("width", Num width);
    ("height", Num height);
    ("num_images", Num numImages);
    ("contrast", Num contrast);
    ("alchemy", Bool alchemy);
    ("styleUUID", Str styleUUID) ].

(** The object literal of [generateImagesAnimeXL] (lines 83-91). *)
Definition animeXLPayload (prompt : string)
    (width height numImages : option float)
    (presetStyle : option string) (alchemy : option bool) : object :=
  let width := default width 1216%float in
  let height := default height 1520%float in
  let numImages := default numImages 4%float in
  let presetStyle := default presetStyle "CINEMATIC" in
  let alchemy := default alchemy true in
  [ ("modelId", Str ANIME_XL_MODEL_ID);
    ("prompt", Str prompt);
    ("width", Num width);
    ("height", Num height);
    ("num_images", Num numImages);
    ("alchemy", Bool alchemy);
    ("presetStyle", Str presetStyle) ].

(** The object literal of [upscaleImage] (lines 140-147). *)
Definition upscalePayload (generatedImageId : string)
    (upscaleMultiplier : option float) (ultraUpscaleStyle : option string)
    (creativityStrength detailContrast similarity : option float) : object :=
  let upscaleMultiplier := default upscaleMultiplier 1.5%float in
  let ultraUpscaleStyle := default ultraUpscaleStyle "ARTISTIC" in
  let creativityStrength := default creativityStrength 5%float in
  let detailContrast := default detailContrast 5%float in
  let similarity := default similarity 5%float in
  [ ("ultraUpscaleStyle", Str ultraUpscaleStyle);
    ("creativityStrength", Num creativityStrength);
    ("detailContrast", Num detailContrast);
    ("similarity", Num similarity);
    ("upscaleMultiplier", Num upscaleMultiplier);
    ("generatedImageId", Str generatedImageId) ].

End Payloads.

(** ** The outside world, promises and axios *)

Module Http.

Inductive method : Type := GET | POST.

(** What one axios call hands to the network: the method of the call
    ([axios.get] / [axios.post]), its URL argument, its data argument (absent
    for [axios.get]) and the [headers] object of its config argument. *)
Record request : Type := mkRequest {
  req_method : method;
  req_url : string;
  req_data : option Js.object;
  req_headers : list (string * string)
}.

(** The part of an axios response the module can observe: the status line
    and the decoded body, [response.status] and [response.data]. *)
Record response : Type := mkResponse {
  status : Z;
  data : Js.value
}.

(** What comes back from the network for one request:
    - a reply of the service without a [Location] header;
    - a reply of the service with a [Location] header; [next] is the request
      the transport of axios makes of it when it follows the reply: the
      [Location], resolved against the URL of the request, as its URL, and
      the method, body and headers its rules for the status and the host
      leave it;
    - no reply at all (DNS failure, refused connection, timeout), with the
      error code of the socket layer. *)
Inductive reply : Type :=
| Replied (r : response)
| Redirected (r : response) (next : request)
| Failed (code : string).

(** A promise rejects with, or a function throws, one of:
    - the AxiosError axios builds when a reply has a status its
      [validateStatus] refuses; [error.response] holds the reply;
    - the AxiosError axios builds when it has no reply to settle on (none
      came, or redirect followed redirect beyond the limit);
      [error.response] is undefined and [error.code] holds the code;
    - any other value raised by a [throw] statement of the module itself. *)
Inductive reason : Type :=
| ResponseError (r : response)
| NetworkError (code : string)
| Thrown (v : Js.value).

Inductive settled (A : Type) : Type :=
| Fulfilled (a : A)
| Rejected (e : reason).
Arguments Fulfilled {A} a.
Arguments Rejected {A} e.

(** Everything outside the module that one of its functions could read or
    change while it runs: the wall clock behind [Date.now()], the generator
    behind [Math.random()], the variables of [process.env], the remote
    service (its reply to a request may depend on what it was sent before:
    the requests of the calls before and, within a call, the requests axios
    has made for it so far), the requests the module has handed to axios so
    far, oldest first, the number of redirects axios follows for one call
    (the module sets none, so it is the default of the axios in use), and
    every request that has gone out on the network, the ones axios made by
    itself included. *)
Record world : Type := mkWorld {
  clock : Z;
  entropy : Z;
  env : list (string * string);
  service : list request -> request -> reply;
  sent : list request;
  maxRedirects : nat;
  wire : list request
}.

(** An [async] function body: run against the world, it settles and leaves
    the world changed. *)
Definition async (A : Type) : Type := world -> settled A * world.

Definition ret {A : Type} (a : A) : async A :=
  fun w => (Fulfilled a, w).

(** [const x = await p; k x]: a rejection of [p] leaves the function at the
    [await] and rejects its own promise with the same reason, there being no
    [try] around it. *)
Definition await {A B : Type} (p : async A) (k : A -> async B) : async B :=
  fun w =>
    match p w with
    | (Fulfilled a, w') => k a w'
    | (Rejected e, w') => (Rejected e, w')
    end.

(** axios is an npm dependency, not part of the module; the definitions
    from here to [axios_get] are its behaviour in Node with the settings the
    module leaves at their defaults (its config holds [headers] only).
    [validateStatus] is the default of [axios.defaults]: resolve for a status
    in 2xx, reject otherwise. *)
Definition validateStatus (st : Z) : bool :=
  ((200 <=? st) && (st <? 300))%Z.

(** axios settling on a response. *)
Definition settle (r : response) : settled response :=
  if validateStatus (status r) then Fulfilled r
  else Rejected (ResponseError r).

(** The transport follows a reply when it has a [Location] header and a
    status in 3xx. *)
Definition is_redirect (st : Z) : bool :=
  ((300 <=? st) && (st <? 400))%Z.

(** The request the transport goes on with after a reply, if any. *)
Definition followed (rep : reply) : option request :=
  match rep with
  | Redirected r next => if is_redirect (status r) then Some next else None
  | Replied _ => None
  | Failed _ => None
  end.

(** The response a reply brings, followed or not. *)
Definition answered (rep : reply) : option response :=
  match rep with
  | Replied r => Some r
  | Redirected r _ => Some r
  | Failed _ => None
  end.

(** One call of axios on the network: the request goes out; a reply that is
    a redirect is followed with the next request, as long as redirects are
    left, and with none left the call fails without a response; any other
    reply is settled on.  The result comes with the requests that went out,
    in order. *)
Fixpoint exchange (redirects_left : nat)
    (ask : list request -> request -> reply)
    (history : list request) (req : request)
    : settled response * list request :=
  match ask history req with
  | Replied r => (settle r, [req])
  | Failed code => (Rejected (NetworkError code), [req])
  | Redirected r next =>
      if is_redirect (status r) then
        match redirects_left with
        | O => (Rejected (NetworkError "ERR_FR_TOO_MANY_REDIRECTS"), [req])
        | S n =>
            match exchange n ask (history ++ [req]) next with
            | (result, trail) => (result, req :: trail)
            end
        end
      else (settle r, [req])
  end.

(** The world after the module has handed one more request to axios and the
    requests of [trail] have gone out for it. *)
Definition logged (req : request) (trail : list request) (w : world)
    : world :=
  mkWorld (clock w) (entropy w) (env w) (service w) (sent w ++ [req])
    (maxRedirects w) (wire w ++ trail).

(** [axios.request]: one exchange for the request it is given. *)
Definition dispatch (req : request) : async response :=
  fun w =>
    match exchange (maxRedirects w) (service w) (sent w) req with
    | (result, trail) => (result, logged req trail w)
    end.

Definition axios_post (url : string) (payload : Js.object)
    (headers : list (string * string)) : async response :=
  dispatch (mkRequest POST url (Some payload) headers).

Definition axios_get (url : string)
    (headers : list (string * string)) : async response :=
  dispatch (mkRequest GET url None headers).

End Http.

Declare Scope async_scope.
Delimit Scope async_scope with async.
Notation "'const' x '<-' 'await' p ';;' k" :=
  (Http.await p (fun x => k))
  (at level 61, x name, p at next level, right associativity) : async_scope.

(** ** The four exported functions *)

Section Operations.
Import Js Http.
Local Open Scope async_scope.

(** Lines 33-63. *)
Definition generateImagesPhoenix (prompt : string)
    (width height numImages contrast : option float)
    (styleUUID : option string) (alchemy : option bool) : async value :=
  let payload :=
    phoenixPayload prompt width height numImages contrast styleUUID alchemy in
  const response <- await
    axios_post "https://cloud.leonardo.ai/api/rest/v1/generations" payload
      [ ("Authorization", "Bearer " ++ API_KEY);
        ("Content-Type", "application/json") ] ;;
  ret (data response).

(** Lines 75-103. *)
Definition generateImagesAnimeXL (prompt : string)
    (width height numImages : option float)
    (presetStyle : option string) (alchemy : option bool) : async value :=
  let payload :=
    animeXLPayload prompt width height numImages presetStyle alchemy in
  const response <- await
    axios_post "https://cloud.leonardo.ai/api/rest/v1/generations" payload
      [ ("Authorization", "Bearer " ++ API_KEY);
        ("Content-Type", "application/json") ] ;;
  ret (data response).

(** Lines 110-120.  The URL is a template literal: the characters of
    [generationId] are appended as they are. *)
Definition fetchGeneration (generationId : string) : async value :=
  const response <- await
    axios_get
      ("https://cloud.leonardo.ai/api/rest/v1/generations/" ++ generationId)
      [ ("Authorization", "Bearer " ++ API_KEY) ] ;;
  ret (data response).

(** Lines 132-159. *)
Definition upscaleImage (generatedImageId : string)
    (upscaleMultiplier : option float) (ultraUpscaleStyle : option string)
    (creativityStrength detailContrast similarity : option float)
    : async value :=
  let payload :=
    upscalePayload generatedImageId upscaleMultiplier ultraUpscaleStyle
      creativityStrength detailContrast similarity in
  const response <- await
    axios_post
      "https://cloud.leonardo.ai/api/rest/v1/variations/universal-upscaler"
      payload
      [ ("Authorization", "Bearer " ++ API_KEY);
        ("Content-Type", "application/json") ] ;;
  ret (data response).

End Operations.

(** ** Calls of the module and what they put on the wire *)

(** One call of one of the four exports, with its arguments. *)
Inductive invocation : Type :=
| CallPhoenix (prompt : string)
    (width height numImages contrast : option float)
    (styleUUID : option string) (alchemy : option bool)
| CallAnimeXL (prompt : string)
    (width height numImages : option float)
    (presetStyle : option string) (alchemy : option bool)
| CallFetch (generationId : string)
| CallUpscale (generatedImageId : string)
    (upscaleMultiplier : option float) (ultraUpscaleStyle : option string)
    (creativityStrength detailContrast similarity : option float).

Definition invoke (c : invocation) : Http.async Js.value :=
  match c with
  | CallPhoenix p w h n c s a => generateImagesPhoenix p w h n c s a
  | CallAnimeXL p w h n s a => generateImagesAnimeXL p w h n s a
  | CallFetch g => fetchGeneration g
  | CallUpscale g m s c d y => upscaleImage g m s c d y
  end.

Section Observations.
Import Http.
Context {A : Type}.

(** The requests a computation sends when it is run in [w]: the ones it
    hands to axios, which it has added to the log. *)
Definition issued (op : async A) (w : world) : list request :=
  skipn (length (sent w)) (sent (snd (op w))).

(** The requests that go out on the network while it runs, those axios
    makes by itself after a redirect included. *)
Definition on_wire (op : async A) (w : world) : list request :=
  skipn (length (wire w)) (wire (snd (op w))).

(** The bodies of those requests. *)
Definition payloads (op : async A) (w : world) : list Js.object :=
  flat_map (fun r => match req_data r with Some o => [o] | None => [] end)
           (issued op w).

(** How the computation settles. *)
Definition outcome (op : async A) (w : world) : settled A := fst (op w).

End Observations.

(** The value of the [Authorization] header of a request. *)
Definition authorization (r : Http.request) : option string :=
  option_map snd
    (find (fun h => String.eqb (fst h) "Authorization") (Http.req_headers r)).



(** A failure raised by the module itself before anything is sent. *)
Definition InvalidParameter (e : Http.reason) : bool :=
  match e with
  | Http.Thrown _ => true
  | _ => false
  end.

(** [response.data] of a fulfilled call; a rejection as it is. *)
Definition passthrough (s : Http.settled Http.response)
    : Http.settled Js.value :=
  match s with
  | Http.Fulfilled r => Http.Fulfilled (Http.data r)
  | Http.Rejected e => Http.Rejected e
  end.

(** The request each call sends, as the call sites spell it. *)
Definition request_of (c : invocation) : Http.request :=
  let auth := ("Authorization", "Bearer " ++ API_KEY) in
  let json := ("Content-Type", "application/json") in
  match c with
  | CallPhoenix p w h n c s a =>
      Http.mkRequest Http.POST
        "https://cloud.leonardo.ai/api/rest/v1/generations"
        (Some (phoenixPayload p w h n c s a)) [auth; json]
  | CallAnimeXL p w h n s a =>
      Http.mkRequest Http.POST
        "https://cloud.leonardo.ai/api/rest/v1/generations"
        (Some (animeXLPayload p w h n s a)) [auth; json]
  | CallFetch g =>
      Http.mkRequest Http.GET
        ("https://cloud.leonardo.ai/api/rest/v1/generations/" ++ g)
        None [auth]
  | CallUpscale g m s c d y =>
      Http.mkRequest Http.POST
        "https://cloud.leonardo.ai/api/rest/v1/variations/universal-upscaler"
        (Some (upscalePayload g m s c d y)) [auth; json]
  end.

(** ** The text of a URL *)

Module Url.

(** RFC 3986, section 3: reading a URL from the left, the scheme, authority
    and path end at the first question mark or number sign; the query and
    the fragment are what follows. *)
Definition delimiter (c : ascii) : bool :=
  (Ascii.eqb c "?" || Ascii.eqb c "#")%char.

(** Scheme, authority and path: the text before the first delimiter. *)
Fixpoint location (u : string) : string :=
  match u with
  | EmptyString => EmptyString
  | String c rest =>
      if delimiter c then EmptyString else String c (location rest)
  end.

(** Query and fragment: the text from the first delimiter on. *)
Fixpoint trailer (u : string) : string :=
  match u with
  | EmptyString => EmptyString
  | String c rest => if delimiter c then u else trailer rest
  end.

(** Whether a text holds a delimiter at all. *)
Fixpoint has_delimiter (u : string) : bool :=
  match u with
  | EmptyString => false
  | String c rest => delimiter c || has_delimiter rest
  end.

(** The number of segment separators in a text. *)
Fixpoint slashes (u : string) : nat :=
  match u with
  | EmptyString => 0
  | String c rest => (if Ascii.eqb c "/" then 1 else 0) + slashes rest
  end.

End Url.

(** ** Worlds used in the examples *)

(** A service that accepts everything and answers with an empty object. *)
Definition always_ok (_ : list Http.request) (_ : Http.request) : Http.reply :=
  Http.Replied (Http.mkResponse 200 (Js.Obj [])).

(** A service that refuses everything with the given status and body. *)
Definition always_status (st : Z) (body : Js.value)
    (_ : list Http.request) (_ : Http.request) : Http.reply :=
  Http.Replied (Http.mkResponse st body).

(** A network on which nothing gets through. *)
Definition unreachable (_ : list Http.request) (_ : Http.request)
    : Http.reply :=
  Http.Failed "ECONNREFUSED".



(** A fresh process: nothing sent yet; the environment offers a token under
    the name the source's comment suggests; axios follows up to 21
    redirects, the limit of its transport when the config sets none. *)
Definition fresh (service : list Http.request -> Http.request -> Http.reply)
    : Http.world :=
  Http.mkWorld 1700000000000 42
    [("LEONARDO_API_KEY", "0f0f0f0f-token-from-the-environment")]
    service [] 21 [].

(** ** The credential, as the specification has it *)

(** The token the environment offers under [LEONARDO_API_KEY], the variable
    the comment above [API_KEY] names. *)
Definition credential (w : Http.world) : option string :=
  option_map snd
    (find (fun v => String.eqb (fst v) "LEONARDO_API_KEY") (Http.env w)).

(** C9 as the specification words it: the bearer token of every request is
    the one the environment supplies. *)
Definition token_from_environment : Prop :=
  forall (c : invocation) (w : Http.world),
    map authorization (issued (invoke c) w) =
    [option_map (fun token => "Bearer " ++ token) (credential w)].

(** ** The example of lines 162-167 *)

Module Console.

(** The process running the example: the world its requests go to, and what
    [console.log] has printed so far, oldest first. *)
Record process : Type := mkProcess {
  net : Http.world;
  stdout : list Js.value
}.

Definition program (A : Type) : Type := process -> Http.settled A * process.

(** An [async] function of the module called from the example: it works on
    the world and prints nothing. *)
Definition lift {A : Type} (op : Http.async A) : program A :=
  fun p =>
    match op (net p) with
    | (r, w') => (r, mkProcess w' (stdout p))
    end.

(** [console.log(v)]. *)
Definition log (v : Js.value) : program unit :=
  fun p => (Http.Fulfilled tt, mkProcess (net p) (stdout p ++ [v])).

(** [const x = await m; k x] in the example: as [Http.await], the rest is
    skipped when [m] rejects. *)
Definition await {A B : Type} (m : program A) (k : A -> program B)
    : program B :=
  fun p =>
    match m p with
    | (Http.Fulfilled a, p') => k a p'
    | (Http.Rejected e, p') => (Http.Rejected e, p')
    end.

End Console.

(** The string literal of lines 163-164. *)
Definition example_prompt : string :=
  "Ultra-detailed cyberpunk anime female, adult 25-35, Bengus-style anatomy, crisp angular lines, neon teal/indigo/electric blue rim light, rain city bokeh, no pink, no rainbow, no logos, no text.".

(** Lines 162-167: one Phoenix call with the prompt and nothing else, then
    the result printed. *)
Definition example : Console.program unit :=
  let prompt := example_prompt in
  Console.await
    (Console.lift
       (generateImagesPhoenix prompt None None None None None None))
    (fun result => Console.log result).

(** The value of the [Content-Type] header of a request. *)
Definition content_type (r : Http.request) : option string :=
  option_map snd
    (find (fun h => String.eqb (fst h) "Content-Type") (Http.req_headers r)).

(** ** Refused replies, as the specification has them *)


(** * Properties *)

(** ** The shape shared by the four functions *)

Lemma round_trip (req : Http.request) (w : Http.world) :
  let run :=
    Http.exchange (Http.maxRedirects w) (Http.service w) (Http.sent w) req in
  Http.await (Http.dispatch req)
    (fun response => Http.ret (Http.data response)) w =
  (passthrough (fst run), Http.logged req (snd run) w).
Proof.
  intros run. unfold Http.await, Http.dispatch. fold run.
  destruct run as [[r | e] trail]; reflexivity.
Qed.

Lemma issued_after_log {A : Type} (op : Http.async A) (req : Http.request)
    (trail : list Http.request) (w : Http.world) :
  snd (op w) = Http.logged req trail w -> issued op w = [req].
Proof.
  intros Hw. unfold issued. rewrite Hw. cbn [Http.logged Http.sent].
  rewrite skipn_app, skipn_all, Nat.sub_diag. reflexivity.
Qed.

Lemma on_wire_after_log {A : Type} (op : Http.async A) (req : Http.request)
    (trail : list Http.request) (w : Http.world) :
  snd (op w) = Http.logged req trail w -> on_wire op w = trail.
Proof.
  intros Hw. unfold on_wire. rewrite Hw. cbn [Http.logged Http.wire].
  rewrite skipn_app, skipn_all, Nat.sub_diag. reflexivity.
Qed.

(** Every call is one call of axios with its request. *)
Lemma invoke_round_trip (c : invocation) (w : Http.world) :
  let run :=
    Http.exchange (Http.maxRedirects w) (Http.service w) (Http.sent w)
      (request_of c) in
  invoke c w = (passthrough (fst run), Http.logged (request_of c) (snd run) w).
Proof.
  destruct c; cbn [invoke request_of];
    unfold generateImagesPhoenix, generateImagesAnimeXL, fetchGeneration,
      upscaleImage, Http.axios_post, Http.axios_get;
    apply round_trip.
Qed.

Lemma invoke_issued (c : invocation) (w : Http.world) :
  issued (invoke c) w = [request_of c].
Proof.
  eapply issued_after_log. rewrite invoke_round_trip. reflexivity.
Qed.

Lemma invoke_on_wire (c : invocation) (w : Http.world) :
  on_wire (invoke c) w =
  snd (Http.exchange (Http.maxRedirects w) (Http.service w) (Http.sent w)
         (request_of c)).
Proof.
  eapply on_wire_after_log. rewrite invoke_round_trip. reflexivity.
Qed.

Lemma invoke_outcome (c : invocation) (w : Http.world) :
  outcome (invoke c) w =
  passthrough
    (fst (Http.exchange (Http.maxRedirects w) (Http.service w) (Http.sent w)
            (request_of c))).
Proof.
  unfold outcome. rewrite invoke_round_trip. reflexivity.
Qed.

(** ** What axios makes of the replies *)

(** A reply that is not followed ends the exchange after one request:
    axios settles on its response. *)
Lemma exchange_settles (n : nat)
    (ask : list Http.request -> Http.request -> Http.reply)
    (history : list Http.request) (req : Http.request) (r : Http.response) :
  Http.answered (ask history req) = Some r ->
  Http.followed (ask history req) = None ->
  Http.exchange n ask history req = (Http.settle r, [req]).
Proof.
  destruct n; cbn [Http.exchange];
    destruct (ask history req) as [r0 | r0 next | code];
    cbn [Http.followed Http.answered]; try discriminate;
    intros Hr; injection Hr as Hr; subst r0; try reflexivity;
    destruct (Http.is_redirect (Http.status r)); try discriminate;
    reflexivity.
Qed.


(** A status in 2xx is no redirect. *)
Lemma accepted_not_followed (rep : Http.reply) (r : Http.response) :
  Http.answered rep = Some r ->
  Http.validateStatus (Http.status r) = true ->
  Http.followed rep = None.
Proof.
  destruct rep as [r0 | r0 next | code]; cbn [Http.answered Http.followed];
    try reflexivity.
  intros Hr Hst. injection Hr as Hr. subst r0.
  unfold Http.validateStatus in Hst. unfold Http.is_redirect.
  apply andb_true_iff in Hst. destruct Hst as [_ Hlt].
  apply Z.ltb_lt in Hlt.
  destruct (Z.leb_spec 300 (Http.status r)); [lia | reflexivity].
Qed.

Lemma validateStatus_2xx (st : Z) :
  Http.validateStatus st = true <-> (200 <= st < 300)%Z.
Proof.
  unfold Http.validateStatus. rewrite andb_true_iff, Z.leb_le, Z.ltb_lt.
  reflexivity.
Qed.


(** A reply to the request of a call that axios does not follow settles the
    call: a 2xx status with its body, any other with the response error. *)
Lemma invoke_settles (c : invocation) (w : Http.world) (r : Http.response) :
  Http.answered (Http.service w (Http.sent w) (request_of c)) = Some r ->
  Http.followed (Http.service w (Http.sent w) (request_of c)) = None ->
  outcome (invoke c) w = passthrough (Http.settle r) /\
  on_wire (invoke c) w = [request_of c].
Proof.
  intros Hr Hfollowed.
  rewrite invoke_outcome, invoke_on_wire.
  rewrite (exchange_settles _ _ _ _ r Hr Hfollowed). split; reflexivity.
Qed.

(** Whatever the replies, axios rejects with a response it was given and
    refuses, or without a response. *)
Lemma exchange_rejects (n : nat)
    (ask : list Http.request -> Http.request -> Http.reply)
    (history : list Http.request) (req : Http.request) (e : Http.reason) :
  fst (Http.exchange n ask history req) = Http.Rejected e ->
  (exists r, e = Http.ResponseError r /\
             Http.validateStatus (Http.status r) = false) \/
  (exists code, e = Http.NetworkError code).
Proof.
  assert (Hsettle : forall r,
            Http.settle r = Http.Rejected e ->
            exists r', e = Http.ResponseError r' /\
                       Http.validateStatus (Http.status r') = false).
  { intros r. unfold Http.settle.
    destruct (Http.validateStatus (Http.status r)) eqn:Hst; [discriminate |].
    intros He. injection He as He. subst e. exists r. split; auto. }
  revert history req.
  induction n as [| n IH]; intros history req; cbn [Http.exchange];
    destruct (ask history req) as [r | r next | code]; cbn [fst];
    try (intros He; left; exact (Hsettle r He));
    try (intros He; injection He as He; subst e; right; eexists; reflexivity).
  - destruct (Http.is_redirect (Http.status r)); cbn [fst].
    + intros He. injection He as He. subst e. right. eexists. reflexivity.
    + intros He. left. exact (Hsettle r He).
  - destruct (Http.is_redirect (Http.status r)); cbn [fst].
    + specialize (IH (history ++ [req])%list next).
      destruct (Http.exchange n ask (history ++ [req]) next) as [res trail].
      exact IH.
    + intros He. left. exact (Hsettle r He).
Qed.


Lemma invoke_payloads (c : invocation) (w : Http.world) :
  payloads (invoke c) w =
  match Http.req_data (request_of c) with Some o => [o] | None => [] end.
Proof.
  unfold payloads. rewrite invoke_issued. cbn [flat_map].
  apply app_nil_r.
Qed.

(** ** Payloads of the generation calls *)

(** C1.  Whatever the arguments (valid ones among them), a generation call
    sends one request whose body has exactly the fields of the interface
    table for its variant, in the table's order and none besides: [modelId],
    [prompt], [width], [height], [num_images], then [contrast], [alchemy],
    [styleUUID] for Phoenix and [alchemy], [presetStyle] for Anime XL; and
    [modelId] holds the constant of the variant. *)
Theorem generate_payload_fields :
  forall (prompt : string) (width height numImages : option float)
         (alchemy : option bool) (w : Http.world),
    (forall (contrast : option float) (styleUUID : option string),
       exists payload,
         payloads (generateImagesPhoenix prompt width height numImages
                     contrast styleUUID alchemy) w = [payload] /\
         Js.keys payload =
           ["modelId"; "prompt"; "width"; "height"; "num_images";
            "contrast"; "alchemy"; "styleUUID"] /\
         Js.get "modelId" payload = Some (Js.Str PHOENIX_MODEL_ID)) /\
    (forall (presetStyle : option string),
       exists payload,
         payloads (generateImagesAnimeXL prompt width height numImages
                     presetStyle alchemy) w = [payload] /\
         Js.keys payload =
           ["modelId"; "prompt"; "width"; "height"; "num_images";
            "alchemy"; "presetStyle"] /\
         Js.get "modelId" payload = Some (Js.Str ANIME_XL_MODEL_ID)).
Proof.
  intros prompt width height numImages alchemy w. split.
  - intros contrast styleUUID. eexists. split; [| split].
    + apply (invoke_payloads
               (CallPhoenix prompt width height numImages contrast styleUUID
                  alchemy)).
    + reflexivity.
    + reflexivity.
  - intros presetStyle. eexists. split; [| split].
    + apply (invoke_payloads
               (CallAnimeXL prompt width height numImages presetStyle alchemy)).
    + reflexivity.
    + reflexivity.
Qed.

(** C2.  A Phoenix call with nothing but a prompt sends exactly the payload
    of the defaults: 1216 by 1520, four images, contrast 3.5, alchemy on and
    the default style UUID. *)
Theorem phoenix_default_payload (prompt : string) (w : Http.world) :
  payloads (generateImagesPhoenix prompt None None None None None None) w =
  [ [ ("modelId", Js.Str PHOENIX_MODEL_ID);
      ("prompt", Js.Str prompt);
      ("width", Js.Num 1216%float);
      ("height", Js.Num 1520%float);
      ("num_images", Js.Num 4%float);
      ("contrast", Js.Num 3.5%float);
      ("alchemy", Js.Bool true);
      ("styleUUID", Js.Str "a5632c7c-ddbb-4e2f-ba34-8456ab3ac436") ] ].
Proof.
  apply (invoke_payloads (CallPhoenix prompt None None None None None None)).
Qed.

(** C3.  An Anime XL call with nothing but a prompt sends exactly the payload
    of the defaults: 1216 by 1520, four images, alchemy on and the preset
    style CINEMATIC. *)
Theorem animeXL_default_payload (prompt : string) (w : Http.world) :
  payloads (generateImagesAnimeXL prompt None None None None None) w =
  [ [ ("modelId", Js.Str ANIME_XL_MODEL_ID);
      ("prompt", Js.Str prompt);
      ("width", Js.Num 1216%float);
      ("height", Js.Num 1520%float);
      ("num_images", Js.Num 4%float);
      ("alchemy", Js.Bool true);
      ("presetStyle", Js.Str "CINEMATIC") ] ].
Proof.
  apply (invoke_payloads (CallAnimeXL prompt None None None None None)).
Qed.

(** C4.  An upscale call with nothing but the image id sends one POST to the
    universal-upscaler endpoint whose body is exactly the payload of the
    defaults: style ARTISTIC, the three strengths at 5, multiplier 1.5 and
    the given id. *)
Theorem upscale_default_request (generatedImageId : string) (w : Http.world) :
  map (fun r => (Http.req_method r, Http.req_url r, Http.req_data r))
      (issued (upscaleImage generatedImageId None None None None None) w) =
  [ (Http.POST,
     "https://cloud.leonardo.ai/api/rest/v1/variations/universal-upscaler",
     Some [ ("ultraUpscaleStyle", Js.Str "ARTISTIC");
            ("creativityStrength", Js.Num 5%float);
            ("detailContrast", Js.Num 5%float);
            ("similarity", Js.Num 5%float);
            ("upscaleMultiplier", Js.Num 1.5%float);
            ("generatedImageId", Js.Str generatedImageId) ]) ].
Proof.
  change (upscaleImage generatedImageId None None None None None)
    with (invoke (CallUpscale generatedImageId None None None None None)).
  rewrite invoke_issued. reflexivity.
Qed.

(** ** Fetching a generation *)

(** C5.  For every id, [fetchGeneration] sends one GET whose URL is the
    generations endpoint with the id appended to the path, without a body;
    and when the service answers with a 2xx status the call returns the
    decoded body of that answer as it came. *)
Theorem fetchGeneration_get (generationId : string) (w : Http.world) :
  let req :=
    Http.mkRequest Http.GET
      ("https://cloud.leonardo.ai/api/rest/v1/generations/" ++ generationId)
      None [("Authorization", "Bearer " ++ API_KEY)] in
  issued (fetchGeneration generationId) w = [req] /\
  forall (st : Z) (body : Js.value),
    Http.service w (Http.sent w) req = Http.Replied (Http.mkResponse st body) ->
    (200 <= st < 300)%Z ->
    outcome (fetchGeneration generationId) w = Http.Fulfilled body.
Proof.
  intros req. split.
  - apply (invoke_issued (CallFetch generationId)).
  - intros st body Hreply Hst.
    change (fetchGeneration generationId) with (invoke (CallFetch generationId)).
    destruct (invoke_settles (CallFetch generationId) w
                (Http.mkResponse st body)) as [Hout _].
    + change (request_of (CallFetch generationId)) with req.
      rewrite Hreply. reflexivity.
    + change (request_of (CallFetch generationId)) with req.
      rewrite Hreply. reflexivity.
    + rewrite Hout. unfold Http.settle. cbn [Http.status].
      rewrite (proj2 (validateStatus_2xx st) Hst). reflexivity.
Qed.

(** [fetchGeneration("abc123")] against a service that answers 200. *)
Lemma fetchGeneration_get_abc123 :
  map (fun r => (Http.req_method r, Http.req_url r, Http.req_data r))
      (issued (fetchGeneration "abc123") (fresh always_ok)) =
    [ (Http.GET,
       "https://cloud.leonardo.ai/api/rest/v1/generations/abc123",
       None) ] /\
  outcome (fetchGeneration "abc123") (fresh always_ok) =
    Http.Fulfilled (Js.Obj []).
Proof.
  destruct (fetchGeneration_get "abc123" (fresh always_ok)) as [Hreq Hres].
  split.
  - rewrite Hreq. reflexivity.
  - apply (Hres 200%Z (Js.Obj [])); [reflexivity | lia].
Defined.

(** ** Failures *)




(** C7.  No call checks its arguments.  Whatever they are, one request is
    handed to axios and the call never fails with an error of its own: it
    settles as axios settles, and an answer outside 2xx that axios does not
    follow comes to the caller as the response error with that answer.  In
    the payload every field holds the value given for it, bit for bit, be it
    outside the documented range or not, and the default where none was
    given, whichever of the other arguments were given. *)
Theorem no_local_validation :
  (forall (c : invocation) (w : Http.world),
     length (issued (invoke c) w) = 1 /\
     (forall e, outcome (invoke c) w = Http.Rejected e ->
                InvalidParameter e = false) /\
     exists req,
       issued (invoke c) w = [req] /\
       outcome (invoke c) w =
         passthrough
           (fst (Http.exchange (Http.maxRedirects w) (Http.service w)
                   (Http.sent w) req)) /\
       (forall r,
          Http.answered (Http.service w (Http.sent w) req) = Some r ->
          Http.followed (Http.service w (Http.sent w) req) = None ->
          Http.validateStatus (Http.status r) = false ->
          outcome (invoke c) w = Http.Rejected (Http.ResponseError r))) /\
  (forall (prompt : string) (width height numImages contrast : option float)
          (styleUUID : option string) (alchemy : option bool)
          (w : Http.world),
     payloads (generateImagesPhoenix prompt width height numImages contrast
                 styleUUID alchemy) w =
     [ [ ("modelId", Js.Str PHOENIX_MODEL_ID);
         ("prompt", Js.Str prompt);
         ("width",
          Js.Num match width with Some x => x | None => 1216%float end);
         ("height",
          Js.Num match height with Some x => x | None => 1520%float end);
         ("num_images",
          Js.Num match numImages with Some x => x | None => 4%float end);
         ("contrast",
          Js.Num match contrast with Some x => x | None => 3.5%float end);
         ("alchemy",
          Js.Bool match alchemy with Some b => b | None => true end);
         ("styleUUID",
          Js.Str match styleUUID with
                 | Some u => u
                 | None => "a5632c7c-ddbb-4e2f-ba34-8456ab3ac436"
                 end) ] ]) /\
  (forall (prompt : string) (width height numImages : option float)
          (presetStyle : option string) (alchemy : option bool)
          (w : Http.world),
     payloads (generateImagesAnimeXL prompt width height numImages
                 presetStyle alchemy) w =
     [ [ ("modelId", Js.Str ANIME_XL_MODEL_ID);
         ("prompt", Js.Str prompt);
         ("width",
          Js.Num match width with Some x => x | None => 1216%float end);
         ("height",
          Js.Num match height with Some x => x | None => 1520%float end);
         ("num_images",
          Js.Num match numImages with Some x => x | None => 4%float end);
         ("alchemy",
          Js.Bool match alchemy with Some b => b | None => true end);
         ("presetStyle",
          Js.Str match presetStyle with
                 | Some p => p
                 | None => "CINEMATIC"
                 end) ] ]) /\
  (forall (generatedImageId : string) (upscaleMultiplier : option float)
          (ultraUpscaleStyle : option string)
          (creativityStrength detailContrast similarity : option float)
          (w : Http.world),
     payloads (upscaleImage generatedImageId upscaleMultiplier
                 ultraUpscaleStyle creativityStrength detailContrast
                 similarity) w =
     [ [ ("ultraUpscaleStyle",
          Js.Str match ultraUpscaleStyle with
                 | Some u => u
                 | None => "ARTISTIC"
                 end);
         ("creativityStrength",
          Js.Num match creativityStrength with
                 | Some x => x
                 | None => 5%float
                 end);
         ("detailContrast",
          Js.Num match detailContrast with Some x => x | None => 5%float end);
         ("similarity",
          Js.Num match similarity with Some x => x | None => 5%float end);
         ("upscaleMultiplier",
          Js.Num match upscaleMultiplier with
                 | Some x => x
                 | None => 1.5%float
                 end);
         ("generatedImageId", Js.Str generatedImageId) ] ]).
Proof.
  split; [| split; [| split]].
  - intros c w. split; [| split].
    + rewrite invoke_issued. reflexivity.
    + intros e. rewrite invoke_outcome.
      destruct (fst (Http.exchange (Http.maxRedirects w) (Http.service w)
                       (Http.sent w) (request_of c))) as [r | e'] eqn:Hrun;
        cbn [passthrough]; [discriminate |].
      intros He. injection He as He. subst e'.
      destruct (exchange_rejects _ _ _ _ _ Hrun) as [[r [He _]] | [code He]];
        subst e; reflexivity.
    + exists (request_of c). split; [apply invoke_issued |].
      split; [apply invoke_outcome |].
      intros r Hanswer Hfollowed Hst.
      destruct (invoke_settles c w r Hanswer Hfollowed) as [Hout _].
      rewrite Hout. unfold Http.settle. rewrite Hst. reflexivity.
  - intros prompt width height numImages contrast styleUUID alchemy w.
    apply (invoke_payloads
             (CallPhoenix prompt width height numImages contrast styleUUID
                alchemy)).
  - intros prompt width height numImages presetStyle alchemy w.
    apply (invoke_payloads
             (CallAnimeXL prompt width height numImages presetStyle alchemy)).
  - intros generatedImageId upscaleMultiplier ultraUpscaleStyle
      creativityStrength detailContrast similarity w.
    apply (invoke_payloads
             (CallUpscale generatedImageId upscaleMultiplier ultraUpscaleStyle
                creativityStrength detailContrast similarity)).
Qed.

(** [generateImagesPhoenix("x", 1001)], and a call with a contrast of 9.5
    and a style that is no UUID between defaulted arguments: the width that
    is no multiple of 8 and the rest go out as given, beside the defaults,
    and the service's 400 is what the caller gets. *)
Lemma out_of_range_is_sent :
  let w := fresh (always_status 400 (Js.Str "invalid width")) in
  payloads (generateImagesPhoenix "x" (Some 1001%float) None None None None
              None) w =
    [ [ ("modelId", Js.Str "de7d3faf-762f-48e0-b3b7-9d0ac3a3fcf3");
        ("prompt", Js.Str "x");
        ("width", Js.Num 1001%float); ("height", Js.Num 1520%float);
        ("num_images", Js.Num 4%float); ("contrast", Js.Num 3.5%float);
        ("alchemy", Js.Bool true);
        ("styleUUID", Js.Str "a5632c7c-ddbb-4e2f-ba34-8456ab3ac436") ] ] /\
  payloads (generateImagesPhoenix "x" None (Some 4096%float) None
              (Some 9.5%float) (Some "not-a-uuid") None) w =
    [ [ ("modelId", Js.Str "de7d3faf-762f-48e0-b3b7-9d0ac3a3fcf3");
        ("prompt", Js.Str "x");
        ("width", Js.Num 1216%float); ("height", Js.Num 4096%float);
        ("num_images", Js.Num 4%float); ("contrast", Js.Num 9.5%float);
        ("alchemy", Js.Bool true); ("styleUUID", Js.Str "not-a-uuid") ] ] /\
  outcome (generateImagesPhoenix "x" (Some 1001%float) None None None None
             None) w =
    Http.Rejected
      (Http.ResponseError (Http.mkResponse 400 (Js.Str "invalid width"))) /\
  InvalidParameter
    (Http.ResponseError (Http.mkResponse 400 (Js.Str "invalid width"))) =
    false.
Proof.
  intros w.
  destruct no_local_validation as [Hany [Hphoenix _]].
  destruct (Hany (CallPhoenix "x" (Some 1001%float) None None None None None)
              w) as [_ [Hlocal [req [Hreq [_ Hrefused]]]]].
  assert (Hout : outcome (generateImagesPhoenix "x" (Some 1001%float) None
                            None None None None) w =
                 Http.Rejected
                   (Http.ResponseError
                      (Http.mkResponse 400 (Js.Str "invalid width")))).
  { injection Hreq as Hreq. subst req.
    apply Hrefused; reflexivity. }
  split; [| split; [| split]].
  - apply (Hphoenix "x" (Some 1001%float) None None None None None w).
  - apply (Hphoenix "x" None (Some 4096%float) None (Some 9.5%float)
             (Some "not-a-uuid") None w).
  - exact Hout.
  - apply Hlocal. exact Hout.
Defined.

(** ** Determinism of what is sent *)

(** C8.  What a call sends depends on its arguments alone.  Run in any two
    worlds (other clocks, other random seeds, other environments, other
    histories, other services) it sends one request, the same in both; so
    the payloads are equal, and equal text under any serialiser.  In
    particular the second of two calls in a row sends what the first
    sent. *)
Theorem requests_deterministic (c : invocation) (w1 w2 : Http.world) :
  length (issued (invoke c) w1) = 1 /\
  issued (invoke c) w1 = issued (invoke c) w2 /\
  payloads (invoke c) w1 = payloads (invoke c) w2 /\
  (forall stringify : Js.object -> string,
     map stringify (payloads (invoke c) w1) =
     map stringify (payloads (invoke c) w2)) /\
  issued (invoke c) (snd (invoke c w1)) = issued (invoke c) w1.
Proof.
  rewrite !invoke_payloads, !invoke_issued. repeat split.
Qed.

(** ** The credential *)

(** C9, refuted.  With another token in the environment, the header of
    [fetchGeneration("abc123")] still carries the literal of line 17. *)
Lemma token_from_environment_fails :
  credential (fresh always_ok) = Some "0f0f0f0f-token-from-the-environment" /\
  map authorization (issued (fetchGeneration "abc123") (fresh always_ok)) =
    [Some "Bearer cd8d7691-5ec5-48e1-9c6b-7160900f59a5"] /\
  ~ token_from_environment.
Proof.
  split; [reflexivity | split; [reflexivity |]].
  intros Hspec.
  specialize (Hspec (CallFetch "abc123") (fresh always_ok)).
  rewrite invoke_issued in Hspec. discriminate Hspec.
Qed.

(** C9, amended.  In every world, whatever its environment holds, every call
    sends one request whose [Authorization] header is [Bearer] followed by
    the string literal bound to [API_KEY] in the source. *)
Theorem authorization_is_literal (c : invocation) (w : Http.world) :
  map authorization (issued (invoke c) w) =
  [Some "Bearer cd8d7691-5ec5-48e1-9c6b-7160900f59a5"].
Proof.
  rewrite invoke_issued. destruct c; reflexivity.
Qed.

(** ** The URL of [fetchGeneration] *)

Lemma location_trailer (u : string) : Url.location u ++ Url.trailer u = u.
Proof.
  induction u as [| c rest IH]; [reflexivity |].
  cbn [Url.location Url.trailer].
  destruct (Url.delimiter c); [reflexivity |].
  cbn [append]. rewrite IH. reflexivity.
Qed.

Lemma slashes_app (u v : string) :
  Url.slashes (u ++ v) = Url.slashes u + Url.slashes v.
Proof.
  induction u as [| c rest IH]; [reflexivity |].
  cbn [append Url.slashes]. rewrite IH. apply Nat.add_assoc.
Qed.

Lemma has_delimiter_cuts (u : string) :
  Url.has_delimiter u = true ->
  Url.trailer u <> EmptyString /\ Url.location u <> u.
Proof.
  induction u as [| c rest IH]; [discriminate |].
  cbn [Url.has_delimiter Url.trailer Url.location].
  destruct (Url.delimiter c); cbn [orb].
  - intros _. split; discriminate.
  - intros Hrest. destruct (IH Hrest) as [Htrailer Hlocation].
    split; [exact Htrailer |].
    intros Heq. apply Hlocation. injection Heq as Heq. exact Heq.
Qed.

(** C10.  The URL sent by [fetchGeneration] is the generations URL followed
    by the characters of the id as given, none escaped.  So the path of the
    request ends where the id has its first question mark or number sign and
    what follows in the id becomes the query and fragment of the request: an
    id with such a character is not the last path segment of the URL it
    yields.  And every slash of the id before that point is one more
    separator in the path. *)
Theorem fetchGeneration_url_raw (generationId : string) (w : Http.world) :
  let base := "https://cloud.leonardo.ai/api/rest/v1/generations/" in
  map Http.req_url (issued (fetchGeneration generationId) w) =
    [base ++ generationId] /\
  Url.location (base ++ generationId) = base ++ Url.location generationId /\
  Url.trailer (base ++ generationId) = Url.trailer generationId /\
  Url.slashes (Url.location (base ++ generationId)) =
    Url.slashes base + Url.slashes (Url.location generationId) /\
  (Url.has_delimiter generationId = true ->
     Url.trailer (base ++ generationId) <> EmptyString /\
     Url.location (base ++ generationId) <> base ++ generationId).
Proof.
  intros base. split; [| split; [| split; [| split]]].
  - change (fetchGeneration generationId)
      with (invoke (CallFetch generationId)).
    rewrite invoke_issued. reflexivity.
  - reflexivity.
  - reflexivity.
  - change (Url.location (base ++ generationId))
      with (base ++ Url.location generationId).
    apply slashes_app.
  - intros Hdelim.
    destruct (has_delimiter_cuts (base ++ generationId)) as [Ht Hl].
    + exact Hdelim.
    + split; assumption.
Qed.

(** An id with a question mark: the request goes to the path of [abc123]
    with a query of the caller's making. *)
Lemma fetchGeneration_url_query :
  map Http.req_url (issued (fetchGeneration "abc123?limit=1") (fresh always_ok))
    = ["https://cloud.leonardo.ai/api/rest/v1/generations/abc123?limit=1"] /\
  Url.location
    "https://cloud.leonardo.ai/api/rest/v1/generations/abc123?limit=1" =
    "https://cloud.leonardo.ai/api/rest/v1/generations/abc123" /\
  Url.trailer
    "https://cloud.leonardo.ai/api/rest/v1/generations/abc123?limit=1" =
    "?limit=1" /\
  Url.location
    "https://cloud.leonardo.ai/api/rest/v1/generations/abc123?limit=1" <>
    "https://cloud.leonardo.ai/api/rest/v1/generations/abc123?limit=1".
Proof.
  destruct (fetchGeneration_url_raw "abc123?limit=1" (fresh always_ok))
    as [Hurl [Hloc [Htrail [_ Hcut]]]].
  split; [exact Hurl | split; [exact Hloc | split; [exact Htrail |]]].
  destruct Hcut as [_ Hcut]; [reflexivity | exact Hcut].
Defined.

(** Ids with slashes and with a number sign. *)
Example fetchGeneration_url_examples :
  let url id :=
    map Http.req_url (issued (fetchGeneration id) (fresh always_ok)) in
  url "abc123/../../me" =
    ["https://cloud.leonardo.ai/api/rest/v1/generations/abc123/../../me"] /\
  map Url.slashes (url "abc123") = [7] /\
  map Url.slashes (url "abc123/../../me") = [10] /\
  map Url.location (url "#abc123") =
    ["https://cloud.leonardo.ai/api/rest/v1/generations/"] /\
  map Url.trailer (url "#abc123") = ["#abc123"].
Proof. repeat split. Qed.

(** * Further properties of the module *)

(** ** What a call returns *)

(** X1.  When the service answers the request of a call, be it a
    generation, a fetch or an upscale, with a 2xx status, the call fulfils
    with the body of that answer as it came; the status is not handed
    on. *)
Theorem fulfilled_on_2xx (c : invocation) (w : Http.world) :
  exists req,
    issued (invoke c) w = [req] /\
    forall (st : Z) (body : Js.value),
      Http.answered (Http.service w (Http.sent w) req) =
        Some (Http.mkResponse st body) ->
      (200 <= st < 300)%Z ->
      outcome (invoke c) w = Http.Fulfilled body.
Proof.
  exists (request_of c). split; [apply invoke_issued |].
  intros st body Hanswer Hst.
  apply validateStatus_2xx in Hst.
  destruct (invoke_settles c w _ Hanswer
              (accepted_not_followed _ _ Hanswer Hst)) as [Hout _].
  rewrite Hout. unfold Http.settle. cbn [Http.status]. rewrite Hst.
  reflexivity.
Qed.

(** An upscale accepted with 202: the caller gets the body. *)
Lemma fulfilled_on_2xx_accepted :
  outcome (invoke (CallUpscale "img-1" None None None None None))
          (fresh (always_status 202 (Js.Str "queued"))) =
    Http.Fulfilled (Js.Str "queued").
Proof.
  destruct (fulfilled_on_2xx (CallUpscale "img-1" None None None None None)
              (fresh (always_status 202 (Js.Str "queued"))))
    as [req [Hreq Hok]].
  apply (Hok 202%Z (Js.Str "queued")); [| lia].
  injection Hreq as Hreq. subst req. reflexivity.
Defined.

(** ** Where and how the requests go *)

(** X2.  Both generation functions POST to the one generations URL, whatever
    their arguments. *)
Theorem generation_endpoint :
  forall (prompt : string) (width height numImages : option float)
         (alchemy : option bool) (w : Http.world),
    (forall (contrast : option float) (styleUUID : option string),
       map (fun r => (Http.req_method r, Http.req_url r))
           (issued (generateImagesPhoenix prompt width height numImages
                      contrast styleUUID alchemy) w) =
       [(Http.POST, "https://cloud.leonardo.ai/api/rest/v1/generations")]) /\
    (forall (presetStyle : option string),
       map (fun r => (Http.req_method r, Http.req_url r))
           (issued (generateImagesAnimeXL prompt width height numImages
                      presetStyle alchemy) w) =
       [(Http.POST, "https://cloud.leonardo.ai/api/rest/v1/generations")]).
Proof.
  intros prompt width height numImages alchemy w. split.
  - intros contrast styleUUID.
    change (generateImagesPhoenix prompt width height numImages contrast
              styleUUID alchemy)
      with (invoke (CallPhoenix prompt width height numImages contrast
                      styleUUID alchemy)).
    rewrite invoke_issued. reflexivity.
  - intros presetStyle.
    change (generateImagesAnimeXL prompt width height numImages presetStyle
              alchemy)
      with (invoke (CallAnimeXL prompt width height numImages presetStyle
                      alchemy)).
    rewrite invoke_issued. reflexivity.
Qed.

(** X3.  The header object of a call has [Authorization] and, exactly when
    the call sends a body, [Content-Type: application/json] after it, and
    nothing else.  The calls with a body are POSTs; the one without is the
    GET of [fetchGeneration]. *)
Theorem content_type_iff_body (c : invocation) (w : Http.world) :
  exists req,
    issued (invoke c) w = [req] /\
    match Http.req_data req with
    | Some _ =>
        Http.req_method req = Http.POST /\
        map fst (Http.req_headers req) = ["Authorization"; "Content-Type"] /\
        content_type req = Some "application/json"
    | None =>
        Http.req_method req = Http.GET /\
        map fst (Http.req_headers req) = ["Authorization"] /\
        content_type req = None
    end.
Proof.
  exists (request_of c). split; [apply invoke_issued |].
  destruct c; repeat split.
Qed.

(** X4.  The URL a call hands to axios starts with
    [https://cloud.leonardo.ai/api/rest/v1/], also the URL that
    [fetchGeneration] builds from an id of any content: no argument reaches
    the scheme or the host of that text.  (Where axios goes from there, by
    dot segments in the id or by a redirect, is not the module's doing.) *)
Theorem requests_stay_on_host (c : invocation) (w : Http.world) :
  forallb
    (fun r =>
       String.prefix "https://cloud.leonardo.ai/api/rest/v1/" (Http.req_url r))
    (issued (invoke c) w) = true.
Proof.
  rewrite invoke_issued. cbn [forallb]. rewrite andb_true_r.
  destruct c; reflexivity.
Qed.

(** X5.  Ids that differ give URLs that differ, in whatever worlds the two
    fetches run: nothing of an id is trimmed, folded or cut off on the way
    into the URL. *)
Theorem fetch_url_injective (g1 g2 : string) (w1 w2 : Http.world) :
  g1 <> g2 ->
  map Http.req_url (issued (fetchGeneration g1) w1) <>
  map Http.req_url (issued (fetchGeneration g2) w2).
Proof.
  intros Hne Heq. apply Hne.
  change (fetchGeneration g1) with (invoke (CallFetch g1)) in Heq.
  change (fetchGeneration g2) with (invoke (CallFetch g2)) in Heq.
  rewrite !invoke_issued in Heq. cbn [map request_of Http.req_url] in Heq.
  injection Heq as Heq. exact Heq.
Qed.

(** Two ids that differ in case only. *)
Lemma fetch_url_injective_case :
  map Http.req_url (issued (fetchGeneration "abc123") (fresh always_ok)) <>
  map Http.req_url (issued (fetchGeneration "ABC123") (fresh unreachable)).
Proof.
  apply (fetch_url_injective "abc123" "ABC123"). discriminate.
Defined.

(** ** The payloads, field by field *)

(** X6.  Whatever its arguments, an upscale call sends one request whose
    body has the six fields of the object literal, in its order and none
    besides, with the image id as it was given. *)
Theorem upscale_payload_fields
    (generatedImageId : string) (upscaleMultiplier : option float)
    (ultraUpscaleStyle : option string)
    (creativityStrength detailContrast similarity : option float)
    (w : Http.world) :
  exists payload,
    payloads (upscaleImage generatedImageId upscaleMultiplier
                ultraUpscaleStyle creativityStrength detailContrast
                similarity) w = [payload] /\
    Js.keys payload =
      ["ultraUpscaleStyle"; "creativityStrength"; "detailContrast";
       "similarity"; "upscaleMultiplier"; "generatedImageId"] /\
    Js.get "generatedImageId" payload = Some (Js.Str generatedImageId).
Proof.
  eexists. split; [| split].
  - apply (invoke_payloads
             (CallUpscale generatedImageId upscaleMultiplier ultraUpscaleStyle
                creativityStrength detailContrast similarity)).
  - reflexivity.
  - reflexivity.
Qed.

(** X7.  The fields of one variant never show up in the payload of the
    other: a Phoenix payload has no [presetStyle], an Anime XL payload has
    neither [contrast] nor [styleUUID]; and no choice of arguments makes the
    two functions send the same payload. *)
Theorem variant_fields_apart :
  forall (prompt : string) (width height numImages contrast : option float)
         (styleUUID : option string) (alchemy : option bool)
         (prompt' : string) (width' height' numImages' : option float)
         (presetStyle : option string) (alchemy' : option bool)
         (w w' : Http.world),
    let phoenix :=
      payloads (generateImagesPhoenix prompt width height numImages contrast
                  styleUUID alchemy) w in
    let anime :=
      payloads (generateImagesAnimeXL prompt' width' height' numImages'
                  presetStyle alchemy') w' in
    map (Js.get "presetStyle") phoenix = [None] /\
    map (Js.get "contrast") anime = [None] /\
    map (Js.get "styleUUID") anime = [None] /\
    phoenix <> anime.
Proof.
  intros prompt width height numImages contrast styleUUID alchemy
    prompt' width' height' numImages' presetStyle alchemy' w w' phoenix anime.
  subst phoenix anime.
  pose proof (invoke_payloads
                (CallPhoenix prompt width height numImages contrast styleUUID
                   alchemy) w) as Hphoenix.
  pose proof (invoke_payloads
                (CallAnimeXL prompt' width' height' numImages' presetStyle
                   alchemy') w') as Hanime.
  cbn [invoke] in Hphoenix, Hanime. rewrite Hphoenix, Hanime.
  repeat split. discriminate.
Qed.

(** ** The example *)

Lemma example_run (p : Console.process) :
  let call :=
    invoke (CallPhoenix example_prompt None None None None None None) in
  example p =
  match outcome call (Console.net p) with
  | Http.Fulfilled result =>
      (Http.Fulfilled tt,
       Console.mkProcess (snd (call (Console.net p)))
         (Console.stdout p ++ [result]))
  | Http.Rejected e =>
      (Http.Rejected e,
       Console.mkProcess (snd (call (Console.net p))) (Console.stdout p))
  end.
Proof.
  intros call. unfold example, Console.await, Console.lift, Console.log, outcome.
  change (generateImagesPhoenix example_prompt None None None None None None)
    with call.
  destruct (call (Console.net p)) as [[result | e] w']; reflexivity.
Qed.

(** X10.  When the generation call of the example fulfils, the example
    prints the result, once and after what was printed before, and fulfils
    itself. *)
Theorem example_prints_result (p : Console.process) (result : Js.value) :
  outcome (generateImagesPhoenix example_prompt None None None None None None)
          (Console.net p) = Http.Fulfilled result ->
  fst (example p) = Http.Fulfilled tt /\
  Console.stdout (snd (example p)) = (Console.stdout p ++ [result])%list.
Proof.
  intros Hcall. rewrite example_run. cbv zeta.
  change (invoke (CallPhoenix example_prompt None None None None None None))
    with (generateImagesPhoenix example_prompt None None None None None None).
  rewrite Hcall. split; reflexivity.
Qed.

(** The example against a service that answers 200 with an empty object. *)
Lemma example_prints_result_ok :
  fst (example (Console.mkProcess (fresh always_ok) [])) = Http.Fulfilled tt /\
  Console.stdout (snd (example (Console.mkProcess (fresh always_ok) []))) =
    [Js.Obj []].
Proof.
  apply (example_prints_result (Console.mkProcess (fresh always_ok) [])
           (Js.Obj [])).
  reflexivity.
Defined.

(** X11.  When the generation call of the example rejects, the example
    rejects with the same reason and prints nothing: there is no handler in
    it, and the [catch] of line 170 is commented out. *)
Theorem example_failure_is_silent (p : Console.process) (e : Http.reason) :
  outcome (generateImagesPhoenix example_prompt None None None None None None)
          (Console.net p) = Http.Rejected e ->
  fst (example p) = Http.Rejected e /\
  Console.stdout (snd (example p)) = Console.stdout p.
Proof.
  intros Hcall. rewrite example_run. cbv zeta.
  change (invoke (CallPhoenix example_prompt None None None None None None))
    with (generateImagesPhoenix example_prompt None None None None None None).
  rewrite Hcall. split; reflexivity.
Qed.

(** The example against a service that answers 401. *)
Lemma example_failure_is_silent_401 :
  fst (example
         (Console.mkProcess (fresh (always_status 401 (Js.Str "unauthorized")))
            [Js.Str "earlier output"])) =
    Http.Rejected
      (Http.ResponseError (Http.mkResponse 401 (Js.Str "unauthorized"))) /\
  Console.stdout
    (snd (example
            (Console.mkProcess
               (fresh (always_status 401 (Js.Str "unauthorized")))
               [Js.Str "earlier output"]))) =
    [Js.Str "earlier output"].
Proof.
  apply (example_failure_is_silent
           (Console.mkProcess
              (fresh (always_status 401 (Js.Str "unauthorized")))
              [Js.Str "earlier output"])).
  reflexivity.
Defined.
